(** * Financial Decision Simulation Model: the sampling-and-aggregation engine

    A shallow embedding of the numeric core of [app.py]:

    - [simulate_df]  (app.py, lines 98-106): the Monte-Carlo loop producing the
      Revenue / Cost / Profit rows;
    - the [metrics] dictionary of [run_and_save_once] (lines 219-226): mean,
      max, min and standard deviation of the Profit column;
    - the sensitivity sweep of [save_chart_images] (lines 142-144).

    The program computes with Python floats.  The code is embedded once, over
    an interface [Number] of the arithmetic it uses, and read at two
    instances: the real numbers (exact arithmetic, no rounding, no overflow)
    and IEEE-754 binary64 (Rocq's primitive floats, which are Python's floats).
    Structural facts are proved for every instance; order and interval facts
    are proved in exact arithmetic; overflow, NaN and infinity are studied at
    binary64, from the specification of the primitive floats.

    The random source (NumPy's global generator) is an explicit state: the
    sequence of unit samples it is going to deliver, and a cursor.  The
    parameters are numbers already: the dashboard's integer base, at most
    50,000,000, converts to a float exactly.

    What NumPy and pandas compute is taken from their documentation:
    [uniform(low, high)] is [low + (high - low) * random_sample()], the
    reductions of a column skip NaN and return NaN on nothing, [std] has
    [ddof = 1], and [linspace] includes its end point. *)

From Stdlib Require Import ZArith List Bool Lia Reals Lra Floats Permutation.
From Stdlib Require Ascii String.
Import ListNotations.
Import Ascii.AsciiSyntax String.StringSyntax.

Set Implicit Arguments.

(** ** The arithmetic the program uses *)

Class Number (A : Type) : Type := {
  zero : A;
  one : A;
  (** The literals [0.05] and [0.25] of the source. *)
  lit_0_05 : A;
  lit_0_25 : A;
  add : A -> A -> A;
  sub : A -> A -> A;
  mul : A -> A -> A;
  div : A -> A -> A;
  opp : A -> A;
  square_root : A -> A;
  (** Conversion of a count to a number ([float(n)]). *)
  of_nat : nat -> A;
  (** [x <= y] as a test. *)
  leb : A -> A -> bool;
  isnan : A -> bool;
  isfinite : A -> bool
}.

(** Exact arithmetic: every value is a real number, so none is NaN and all
    are finite. *)
#[export] Instance R_Number : Number R := {|
  zero := 0%R;
  one := 1%R;
  lit_0_05 := (5 / 100)%R;
  lit_0_25 := (25 / 100)%R;
  add := Rplus;
  sub := Rminus;
  mul := Rmult;
  div := Rdiv;
  opp := Ropp;
  square_root := R_sqrt.sqrt;
  of_nat := INR;
  leb := fun x y => if Rle_dec x y then true else false;
  isnan := fun _ => false;
  isfinite := fun _ => true
|}.

(** IEEE-754 binary64, round to nearest even: Python's [float].  The literal
    [0.05] is the nearest binary64 value, [0x1.999999999999ap-5]. *)
#[export] Instance float_Number : Number float := {|
  zero := 0%float;
  one := 1%float;
  lit_0_05 := 0x1.999999999999ap-5%float;
  lit_0_25 := 0.25%float;
  add := PrimFloat.add;
  sub := PrimFloat.sub;
  mul := PrimFloat.mul;
  div := PrimFloat.div;
  opp := PrimFloat.opp;
  square_root := PrimFloat.sqrt;
  of_nat := fun n => PrimFloat.of_uint63 (Uint63.of_Z (Z.of_nat n));
  leb := PrimFloat.leb;
  isnan := PrimFloat.is_nan;
  isfinite := PrimFloat.is_finite
|}.

(** ** The random source and the exceptions *)

(** The only exception the engine can meet: [numpy.random.uniform] raises
    [OverflowError] when [high - low] is not finite. *)
Inductive exn : Type :=
| OverflowError.

(** The state of the generator: the unit samples of [[0, 1)] it delivers, in
    order, and the number of samples already consumed. *)
Record rng (A : Type) : Type := mkRng {
  draws : nat -> A;
  pos : nat
}.

(** A computation that reads the generator and may raise. *)
Definition M (A X : Type) : Type := rng A -> exn + (X * rng A).

Definition ret {A X : Type} (x : X) : M A X := fun g => inr (x, g).

Definition bind {A X Y : Type} (m : M A X) (k : X -> M A Y) : M A Y :=
  fun g =>
    match m g with
    | inl e => inl e
    | inr (x, g') => k x g'
    end.

Definition raise {A X : Type} (e : exn) : M A X := fun _ => inl e.

Notation "x <- m ;; k" := (bind m (fun x => k))
  (at level 61, m at next level, right associativity).

Section Engine.

Context {A : Type} {num : Number A}.

(** [numpy.random.random_sample()]: the next unit sample. *)
Definition random_sample : M A A :=
  fun g => inr (draws g (pos g), mkRng (draws g) (S (pos g))).

(** [numpy.random.uniform(low, high)] on scalars: the range [high - low] must
    be finite, and the sample is [low + (high - low) * random_sample()]. *)
Definition uniform (low high : A) : M A A :=
  let range := sub high low in
  if isfinite range
  then r <- random_sample ;; ret (add low (mul range r))
  else raise OverflowError.

(** One row of the data frame: the columns Revenue, Cost, Profit. *)
Record Trial : Type := mkTrial {
  Revenue : A;
  Cost : A;
  Profit : A
}.

Definition DataFrame : Type := list Trial.

(** The body of the [for] loop of [simulate_df], run [k] times on the rows
    accumulated so far. *)
Fixpoint simulate_loop (base_sales gr cost_pct tax_pct : A) (k : nat)
    (rows : list Trial) : M A (list Trial) :=
  match k with
  | O => ret rows
  | S k' =>
      u1 <- uniform (opp gr) gr ;;
      let rev := mul base_sales (add one u1) in
      u2 <- uniform (sub cost_pct lit_0_05) (add cost_pct lit_0_05) ;;
      let cost := mul rev u2 in
      let profit := mul (sub rev cost) (sub one tax_pct) in
      simulate_loop base_sales gr cost_pct tax_pct k' (rows ++ [mkTrial rev cost profit])
  end.

(** [simulate_df(base_sales, gr, cost_pct, tax_pct, n_runs)]: [range(n_runs)]
    is empty when [n_runs <= 0]. *)
Definition simulate_df (base_sales gr cost_pct tax_pct : A) (n_runs : Z)
    : M A DataFrame :=
  simulate_loop base_sales gr cost_pct tax_pct (Z.to_nat n_runs) [].

(** *** The statistics of a column (pandas, [skipna=True])

    A pandas reduction first drops the NaN entries.  Its result is NaN when
    nothing is left (and, for [std], when fewer than two values are left):
    that missing result is [None] here. *)

Definition dropna (s : list A) : list A :=
  filter (fun x => negb (isnan x)) s.

Definition sum (s : list A) : A := fold_left add s zero.

(** [Series.mean()]. *)
Definition Series_mean (s : list A) : option A :=
  match dropna s with
  | [] => None
  | v => Some (div (sum v) (of_nat (length v)))
  end.

(** [Series.max()]. *)
Definition Series_max (s : list A) : option A :=
  match dropna s with
  | [] => None
  | x :: v => Some (fold_left (fun m y => if leb m y then y else m) v x)
  end.

(** [Series.min()]. *)
Definition Series_min (s : list A) : option A :=
  match dropna s with
  | [] => None
  | x :: v => Some (fold_left (fun m y => if leb y m then y else m) v x)
  end.

(** [Series.std()], with the default [ddof=1]: the square root of the sum of
    the squared deviations from the mean, divided by [count - 1]. *)
Definition Series_std (s : list A) : option A :=
  let v := dropna s in
  let count := length v in
  if (count <=? 1)%nat then None
  else
    let avg := div (sum v) (of_nat count) in
    let sqr := map (fun x => mul (sub avg x) (sub avg x)) v in
    Some (square_root (div (sum sqr) (of_nat (count - 1)))).

(** The [metrics] dictionary of [run_and_save_once]. *)
Record Metrics : Type := mkMetrics {
  m_avg : option A;
  m_max : option A;
  m_min : option A;
  m_std : option A
}.

Definition metrics_of (df_sim : DataFrame) : Metrics :=
  let profit := map Profit df_sim in
  {| m_avg := Series_mean profit;
     m_max := Series_max profit;
     m_min := Series_min profit;
     m_std := Series_std profit |}.

(** The first two statements of [run_and_save_once()] (lines 220-226), on the
    values of the sidebar controls they read: the simulation and its
    metrics.  The export of the spreadsheet, the charts and the report that
    follows is not part of the engine and is not modelled. *)
Definition run_and_save_once (sales growth_rate cost_pct tax_pct : A) (runs : Z)
    : M A (DataFrame * Metrics) :=
  df_sim <- simulate_df sales growth_rate cost_pct tax_pct runs ;;
  ret (df_sim, metrics_of df_sim).

(** *** The sensitivity sweep of [save_chart_images] *)

(** [numpy.linspace(start, stop, num)] for [num >= 2]: the samples
    [i * step + start] with [step = (stop - start) / (num - 1)], the last one
    replaced by [stop]. *)
Definition linspace (start stop : A) (num : nat) : list A :=
  let step := div (sub stop start) (of_nat (num - 1)) in
  let y := map (fun i => add (mul (of_nat i) step) start) (seq 0 num) in
  if (1 <? num)%nat then removelast y ++ [stop] else y.

(** The list comprehension
    [[simulate_df(sales, g, cost_pct, tax_pct, 200)["Profit"].mean() for g in grs]]. *)
Fixpoint avg_profits_of (sales cost_pct tax_pct : A) (grs : list A)
    : M A (list (option A)) :=
  match grs with
  | [] => ret []
  | g :: grs' =>
      df <- simulate_df sales g cost_pct tax_pct 200 ;;
      rest <- avg_profits_of sales cost_pct tax_pct grs' ;;
      ret (Series_mean (map Profit df) :: rest)
  end.

(** The two sequences plotted against each other: the growth rates and the
    average profits. *)
Definition sensitivity (sales cost_pct tax_pct : A) : M A (list A * list (option A)) :=
  let grs := linspace lit_0_05 lit_0_25 5 in
  avg_profits <- avg_profits_of sales cost_pct tax_pct grs ;;
  ret (grs, avg_profits).

(** *** One iteration, in closed form *)

(** The row that one iteration of the loop builds from its two unit samples. *)
Definition trial_of (base_sales gr cost_pct tax_pct r1 r2 : A) : Trial :=
  let rev := mul base_sales (add one (add (opp gr) (mul (sub gr (opp gr)) r1))) in
  let lo := sub cost_pct lit_0_05 in
  let hi := add cost_pct lit_0_05 in
  let cost := mul rev (add lo (mul (sub hi lo) r2)) in
  mkTrial rev cost (mul (sub rev cost) (sub one tax_pct)).

(** The row built at iteration [j] by a run that starts on the generator [g]:
    the iteration consumes the samples [2 j] and [2 j + 1] after the cursor. *)
Definition row_at (base_sales gr cost_pct tax_pct : A) (g : rng A) (j : nat) : Trial :=
  trial_of base_sales gr cost_pct tax_pct
    (draws g (pos g + 2 * j)) (draws g (pos g + 2 * j + 1)).

(** The parameters for which neither call of [uniform] raises. *)
Definition ranges_finite (gr cost_pct : A) : bool :=
  isfinite (sub gr (opp gr))
  && isfinite (sub (add cost_pct lit_0_05) (sub cost_pct lit_0_05)).

End Engine.

Arguments Trial A : clear implicits.
Arguments DataFrame A : clear implicits.
Arguments Metrics A : clear implicits.

(** The generator used in the examples: every unit sample is [r]. *)
Definition constant_rng {A : Type} (r : A) : rng A := mkRng (fun _ => r) 0.

(** ** Exact arithmetic: the vocabulary of the claims *)

Section ExactVocabulary.

Local Open Scope R_scope.

(** The generator delivers unit samples: numbers of [[0, 1)]. *)
Definition unit_samples (g : rng R) : Prop :=
  forall i : nat, 0 <= draws g i < 1.

(** The statistics as the specification words them: the arithmetic mean, and
    the sample standard deviation with divisor [n - 1]. *)
Definition total (xs : list R) : R := fold_right Rplus 0 xs.

Definition arithmetic_mean (xs : list R) : R := total xs / INR (length xs).

Definition sample_stddev (xs : list R) : R :=
  R_sqrt.sqrt
    (total (map (fun x => (x - arithmetic_mean xs) ^ 2) xs) / INR (length xs - 1)).

(** A generator whose every unit sample is one half. *)
Definition half_rng : rng R := constant_rng (1 / 2).

(** The row of a run of the default controls on that generator, at the tax
    rate [tax_pct]. *)
Definition half_row (tax_pct : R) : Trial R :=
  trial_of 500000 (1 / 10) (4 / 10) tax_pct (1 / 2) (1 / 2).

End ExactVocabulary.

(** ** Binary64: the magnitude of a number *)

(** [mag_leb K x]: the number [x], in the mantissa-exponent form that
    specifies the primitive floats, is a zero or a finite number
    [m * 2^e] whose mantissa has at most [K - e] binary digits, that is,
    [|x| < 2^K]. *)
Definition mag_leb (K : Z) (x : spec_float) : bool :=
  match x with
  | S754_zero _ => true
  | S754_finite _ m e => (Zpos (digits2_pos m) + e <=? K)%Z
  | _ => false
  end.

Definition within (K : Z) (x : float) : bool := mag_leb K (Prim2SF x).

(** ** What a computation returns, the generator apart *)

Definition outcome {A X : Type} (r : exn + (X * rng A)) : exn + X :=
  match r with
  | inl e => inl e
  | inr (x, _) => inr x
  end.

(** ** The files of a run

    [run_and_save_once] (lines 232-237) and [save_chart_images] (lines 132
    and 142) build the names of the four files of a run from the folder and
    the time stamp. *)

Section Paths.

Local Open Scope string_scope.

Local Notation "a +++ b" := (String.append a b) (at level 60, right associativity).

Definition starts_with_sep (b : String.string) : bool :=
  match b with
  | String.String c _ => Ascii.eqb c "/"
  | String.EmptyString => false
  end.

Fixpoint ends_with_sep (a : String.string) : bool :=
  match a with
  | String.EmptyString => false
  | String.String c String.EmptyString => Ascii.eqb c "/"
  | String.String _ a' => ends_with_sep a'
  end.

(** [os.path.join(a, b)], POSIX: an absolute [b] replaces [a]; otherwise [b]
    is appended, after a separator unless [a] is empty or ends with one. *)
Definition path_join (a b : String.string) : String.string :=
  if starts_with_sep b then b
  else if (String.eqb a "" || ends_with_sep a)%bool then a +++ b
  else a +++ "/" +++ b.

(** The fields of [datetime.now()] that the time stamp prints. *)
Record datetime : Type := mkDatetime {
  year : Z;
  month : Z;
  day : Z;
  hour : Z;
  minute : Z;
  second : Z
}.

(** The character of the last decimal digit of [n]. *)
Definition digit (n : Z) : Ascii.ascii :=
  Ascii.ascii_of_nat (Z.to_nat (48 + n mod 10)).

(** A zero-padded decimal field of two digits ([%m], [%d], [%H], [%M],
    [%S]) and of four digits ([%Y], for the years from 1000 on). *)
Definition pad2 (n : Z) (rest : String.string) : String.string :=
  String.String (digit (n / 10)) (String.String (digit n) rest).

Definition pad4 (n : Z) (rest : String.string) : String.string :=
  String.String (digit (n / 1000)) (String.String (digit (n / 100))
    (String.String (digit (n / 10)) (String.String (digit n) rest))).

(** [strftime("%Y%m%d_%H%M%S")]. *)
Definition strftime (d : datetime) : String.string :=
  pad4 (year d) (pad2 (month d) (pad2 (day d)
    (String.String "_"
       (pad2 (hour d) (pad2 (minute d) (pad2 (second d) "")))))).

(** The values [datetime.now()] can take, from the year 1000 on. *)
Definition valid_datetime (d : datetime) : Prop :=
  (1000 <= year d <= 9999 /\ 1 <= month d <= 12 /\ 1 <= day d <= 31
   /\ 0 <= hour d <= 23 /\ 0 <= minute d <= 59 /\ 0 <= second d <= 59)%Z.

Definition excel_path (save_folder ts : String.string) : String.string :=
  path_join save_folder ("financial_results_" +++ ts +++ ".xlsx").

Definition pdf_path (save_folder ts : String.string) : String.string :=
  path_join save_folder ("financial_report_" +++ ts +++ ".pdf").

Definition baseimg (save_folder ts : String.string) : String.string :=
  path_join save_folder ("sim_" +++ ts).

(** The two paths [save_chart_images] builds and returns. *)
Definition hist_path (basepath : String.string) : String.string :=
  basepath +++ "_hist.png".

Definition sens_path (basepath : String.string) : String.string :=
  basepath +++ "_sens.png".

(** The four files of a run, in the order excel, pdf, histogram,
    sensitivity chart. *)
Definition output_paths (save_folder ts : String.string) : list String.string :=
  [excel_path save_folder ts; pdf_path save_folder ts;
   hist_path (baseimg save_folder ts); sens_path (baseimg save_folder ts)].

End Paths.

(** ** The sheet and the chart of [save_excel_with_chart] (lines 111-126) *)

Section Sheet.

Context {A : Type} {num : Number A}.

Local Open Scope string_scope.

Inductive Cell : Type :=
| Text (s : String.string)
| Num (x : A)
| Blank.

(** How [to_excel] writes a number: NaN as an empty cell, an infinity as
    the text [inf] or [-inf]. *)
Definition excel_cell (x : A) : Cell :=
  if isnan x then Blank
  else if isfinite x then Num x
  else if leb zero x then Text "inf" else Text "-inf".

(** [df.to_excel(writer, sheet_name='Simulations', index=False)]: the row of
    the column names, then one row per row of the frame. *)
Definition to_excel (df : DataFrame A) : list (list Cell) :=
  [Text "Revenue"; Text "Cost"; Text "Profit"]
  :: map (fun t => [excel_cell (Revenue t); excel_cell (Cost t);
                    excel_cell (Profit t)]) df.

(** A range of a chart series:
    [[sheet, first_row, first_col, last_row, last_col]], counted from zero. *)
Record cell_range : Type := mkRange {
  first_row : nat;
  first_col : nat;
  last_row : nat;
  last_col : nat
}.

(** The ['values'] and the ['categories'] of the series, with
    [max_row = len(df)]. *)
Definition chart_values (df : DataFrame A) : cell_range :=
  mkRange 1 2 (length df) 2.

Definition chart_categories (df : DataFrame A) : cell_range :=
  mkRange 1 0 (length df) 0.

Definition cell_at (sheet : list (list Cell)) (r c : nat) : option Cell :=
  match nth_error sheet r with
  | Some row => nth_error row c
  | None => None
  end.

(** The cells of a one-column range, from its first row to its last row
    inclusive; none when the last row is before the first. *)
Definition range_cells (sheet : list (list Cell)) (rg : cell_range)
    : list (option Cell) :=
  map (fun r => cell_at sheet r (first_col rg))
      (seq (first_row rg) (last_row rg + 1 - first_row rg)).

End Sheet.

Arguments Cell A : clear implicits.

(** ** The controls of the dashboard (lines 246-277) *)

(** What one run of the script reads from the widgets. *)
Record Controls : Type := mkControls {
  start_clicked : bool;
  stop_clicked : bool;
  auto_refresh : bool;
  run_once_clicked : bool
}.

(** What the script then does: the refresh loop, one run with its
    downloads, or the hint only. *)
Inductive Mode : Type :=
| AutoRefresh
| RunOnce
| Idle.

(** One run of the script on the session state ([None]: no [stop_flag] key
    yet): the flag it leaves, and what it does. *)
Definition script_run (stop_flag : option bool) (c : Controls) : bool * Mode :=
  let flag0 := match stop_flag with None => false | Some b => b end in
  let flag1 := if start_clicked c then false else flag0 in
  let flag2 := if stop_clicked c then true else flag1 in
  (flag2,
   if auto_refresh c && negb flag2 then AutoRefresh
   else if run_once_clicked c then RunOnce
   else Idle).

(** The script is run again on every interaction, on the session state the
    previous run left. *)
Fixpoint script_reruns (stop_flag : option bool) (cs : list Controls) : list Mode :=
  match cs with
  | [] => []
  | c :: cs' =>
      let (flag, mode) := script_run stop_flag c in
      mode :: script_reruns (Some flag) cs'
  end.

Unset Implicit Arguments.

(** * The loop of [simulate_df] *)

Section Loop.

Context {A : Type} {num : Number A}.

Variables base_sales gr cost_pct tax_pct : A.

Local Abbreviation row := (row_at base_sales gr cost_pct tax_pct).

Lemma uniform_finite (low high : A) (g : rng A) :
  isfinite (sub high low) = true ->
  uniform low high g
  = inr (add low (mul (sub high low) (draws g (pos g))), mkRng (draws g) (S (pos g))).
Proof.
  intros Hfin. unfold uniform. rewrite Hfin. reflexivity.
Qed.

Lemma uniform_not_finite (low high : A) (g : rng A) :
  isfinite (sub high low) = false -> uniform low high g = inl OverflowError.
Proof.
  intros Hinf. unfold uniform. rewrite Hinf. reflexivity.
Qed.

(** With finite ranges the loop never raises: it appends one row per
    iteration and consumes two samples per row. *)
Lemma simulate_loop_rows (k : nat) :
  ranges_finite gr cost_pct = true ->
  forall (rows : list (Trial A)) (g : rng A),
    simulate_loop base_sales gr cost_pct tax_pct k rows g
    = inr (rows ++ map (row g) (seq 0 k), mkRng (draws g) (pos g + 2 * k)).
Proof.
  intros Hfin. apply andb_prop in Hfin. destruct Hfin as [Hgr Hcost].
  induction k as [|k IH]; intros rows g.
  - cbn. unfold ret. rewrite app_nil_r. destruct g as [d p]. cbn.
    f_equal. f_equal. f_equal. lia.
  - cbn [simulate_loop]. unfold bind at 1. rewrite uniform_finite by exact Hgr.
    unfold bind at 1. rewrite uniform_finite by exact Hcost.
    rewrite IH. cbn [draws pos].
    rewrite <- app_assoc. cbn [app].
    f_equal. f_equal.
    + f_equal. rewrite <- cons_seq, <- seq_shift, map_cons, map_map.
      f_equal.
      * unfold row_at, trial_of. repeat f_equal; lia.
      * apply map_ext. intros j. unfold row_at. cbn [draws pos].
        f_equal; f_equal; lia.
    + f_equal. lia.
Qed.

(** A loop that iterates at least once and returns had finite ranges. *)
Lemma simulate_loop_returns (k : nat) (rows df : list (Trial A)) (g g' : rng A) :
  simulate_loop base_sales gr cost_pct tax_pct (S k) rows g = inr (df, g') ->
  ranges_finite gr cost_pct = true.
Proof.
  cbn [simulate_loop]. unfold bind at 1. unfold ranges_finite.
  destruct (isfinite (sub gr (opp gr))) eqn:Hgr.
  - rewrite uniform_finite by exact Hgr. unfold bind at 1.
    destruct (isfinite (sub (add cost_pct lit_0_05) (sub cost_pct lit_0_05))) eqn:Hcost.
    + reflexivity.
    + rewrite uniform_not_finite by exact Hcost. discriminate.
  - rewrite uniform_not_finite by exact Hgr. discriminate.
Qed.

(** Whatever the parameters, the rows of a run that returns are the rows
    [row g 0], ..., [row g (n_runs - 1)]. *)
Lemma simulate_df_rows (n_runs : Z) (g g' : rng A) (df : DataFrame A) :
  simulate_df base_sales gr cost_pct tax_pct n_runs g = inr (df, g') ->
  df = map (row g) (seq 0 (Z.to_nat n_runs))
  /\ g' = mkRng (draws g) (pos g + 2 * Z.to_nat n_runs).
Proof.
  unfold simulate_df. destruct (Z.to_nat n_runs) as [|k] eqn:Hk.
  - cbn. unfold ret. intros H. inversion H. subst. split; [reflexivity|].
    destruct g' as [d p]. cbn. f_equal. lia.
  - intros H. pose proof (simulate_loop_returns _ _ _ _ _ H) as Hfin.
    rewrite (simulate_loop_rows _ Hfin) in H. cbn [app] in H.
    inversion H. split; reflexivity.
Qed.

Lemma simulate_df_finite (n_runs : Z) (g : rng A) :
  ranges_finite gr cost_pct = true ->
  simulate_df base_sales gr cost_pct tax_pct n_runs g
  = inr (map (row g) (seq 0 (Z.to_nat n_runs)),
         mkRng (draws g) (pos g + 2 * Z.to_nat n_runs)).
Proof.
  intros Hfin. unfold simulate_df. rewrite (simulate_loop_rows _ Hfin). reflexivity.
Qed.

End Loop.

(** * Claims that hold at every instance of the arithmetic *)

Section Generic.

Context {A : Type} {num : Number A}.

(** C1.  For parameters whose two sampling ranges are finite (every finite
    parameter set of the stated domain) and a run count [n >= 1],
    [simulate_df] returns, and the data frame it returns has exactly [n]
    rows. *)
Theorem simulate_df_returns_n_trials
    (base_sales gr cost_pct tax_pct : A) (n : Z) (g : rng A) :
  ranges_finite gr cost_pct = true ->
  (1 <= n)%Z ->
  exists (df : DataFrame A) (g' : rng A),
    simulate_df base_sales gr cost_pct tax_pct n g = inr (df, g')
    /\ Z.of_nat (length df) = n.
Proof.
  intros Hfin Hn.
  rewrite (simulate_df_finite base_sales gr cost_pct tax_pct n g Hfin).
  eexists. eexists. split; [reflexivity|].
  rewrite length_map, length_seq. lia.
Qed.

(** C2.  Every row of a data frame returned by [simulate_df] has
    [Profit = (Revenue - Cost) * (1 - tax_pct)], on the Revenue and Cost of
    that same row. *)
Theorem simulate_df_profit_formula
    (base_sales gr cost_pct tax_pct : A) (n : Z) (g g' : rng A) (df : DataFrame A) :
  simulate_df base_sales gr cost_pct tax_pct n g = inr (df, g') ->
  forall t : Trial A,
    In t df ->
    Profit t = mul (sub (Revenue t) (Cost t)) (sub one tax_pct).
Proof.
  intros Hrun t Hin.
  apply simulate_df_rows in Hrun. destruct Hrun as [Hdf _]. subst df.
  apply in_map_iff in Hin. destruct Hin as [j [Hj _]]. subst t.
  reflexivity.
Qed.

(** C3, as the code has it.  [simulate_df] validates nothing: for a run count
    [n <= 0] the loop body is never entered, no parameter is looked at, and
    the empty data frame is returned with the generator untouched. *)
Theorem simulate_df_nonpositive_runs
    (base_sales gr cost_pct tax_pct : A) (n : Z) (g : rng A) :
  (n <= 0)%Z ->
  simulate_df base_sales gr cost_pct tax_pct n g = inr ([], g).
Proof.
  intros Hn. unfold simulate_df.
  replace (Z.to_nat n) with 0%nat by lia. reflexivity.
Qed.

(** C4, as the code has it.  On a data frame without rows the four
    statistics are computed without any error, and each of them is the
    missing value (NaN). *)
Theorem metrics_of_empty (df : DataFrame A) :
  length df = 0%nat ->
  metrics_of df = mkMetrics None None None None.
Proof.
  intros Hlen. destruct df as [|t df]; [reflexivity | discriminate].
Qed.

End Generic.

(** * Claims about order and intervals, in exact arithmetic *)

Section Exact.

Local Open Scope R_scope.

(** Unfolds the operations of [Number] at the real numbers. *)
Ltac exact_arith :=
  cbn [Revenue Cost Profit zero one lit_0_05 lit_0_25 add sub mul div opp
       square_root of_nat isnan isfinite R_Number] in *.

(** In exact arithmetic no range is infinite, so [uniform] never raises. *)
Lemma ranges_finite_exact (gr cost_pct : R) : ranges_finite gr cost_pct = true.
Proof. reflexivity. Qed.

Lemma revenue_interval (base_sales gr cost_pct tax_pct r1 r2 : R) :
  0 <= base_sales -> 0 <= gr -> 0 <= r1 < 1 ->
  base_sales * (1 - gr)
  <= Revenue (trial_of base_sales gr cost_pct tax_pct r1 r2)
  <= base_sales * (1 + gr).
Proof.
  intros Hb Hg Hr. unfold trial_of. exact_arith.
  split; apply Rmult_le_compat_l; try assumption; nra.
Qed.



Lemma Forall2_map_same {X Y Z : Type} (P : Y -> Z -> Prop)
    (f : X -> Y) (h : X -> Z) (l : list X) :
  (forall x, P (f x) (h x)) -> Forall2 P (map f l) (map h l).
Proof.
  intros HP. induction l as [|x l IH]; cbn; constructor; auto.
Qed.


(** ** The summary statistics *)

Lemma dropna_exact (s : list R) : dropna s = s.
Proof.
  unfold dropna. induction s as [|x s IH]; cbn; [reflexivity|].
  f_equal. exact IH.
Qed.

Lemma fold_left_add_total (xs : list R) (a : R) :
  fold_left add xs a = a + total xs.
Proof.
  revert a. induction xs as [|x xs IH]; intros a; cbn [fold_left].
  - cbn. lra.
  - rewrite IH. change (total (x :: xs)) with (x + total xs). exact_arith. lra.
Qed.

Lemma sum_total (xs : list R) : sum xs = total xs.
Proof.
  unfold sum. rewrite fold_left_add_total. exact_arith. lra.
Qed.

Lemma leb_exact_true (x y : R) : leb x y = true <-> x <= y.
Proof.
  cbn. destruct (Rle_dec x y); split; intros; try assumption;
    try reflexivity; try discriminate; contradiction.
Qed.

(** The running maximum of pandas' reduction is an element of the column and
    bounds the column from above. *)
Lemma running_max_spec (v : list R) (x : R) :
  let M := fold_left (fun m y => if leb m y then y else m) v x in
  In M (x :: v) /\ forall y, In y (x :: v) -> y <= M.
Proof.
  revert x. induction v as [|z v IH]; intros x; cbn [fold_left].
  - cbn. split; [left; reflexivity|]. intros y [Hy|[]]. subst. lra.
  - destruct (leb x z) eqn:Hxz.
    + apply leb_exact_true in Hxz.
      destruct (IH z) as [Hin Hub]. cbv zeta. split.
      * right. exact Hin.
      * intros y [Hy|Hy]; [subst y | apply Hub; exact Hy].
        apply Rle_trans with z; [exact Hxz | apply Hub; left; reflexivity].
    + assert (Hlt : z < x).
      { apply Rnot_le_lt. intros Hle. apply leb_exact_true in Hle. congruence. }
      destruct (IH x) as [Hin Hub]. cbv zeta. split.
      * destruct Hin as [Hin|Hin]; [left; exact Hin | right; right; exact Hin].
      * intros y [Hy|[Hy|Hy]].
        -- subst y. apply Hub. left. reflexivity.
        -- subst y. apply Rle_trans with x; [lra | apply Hub; left; reflexivity].
        -- apply Hub. right. exact Hy.
Qed.

Lemma running_min_spec (v : list R) (x : R) :
  let m := fold_left (fun m y => if leb y m then y else m) v x in
  In m (x :: v) /\ forall y, In y (x :: v) -> m <= y.
Proof.
  revert x. induction v as [|z v IH]; intros x; cbn [fold_left].
  - cbn. split; [left; reflexivity|]. intros y [Hy|[]]. subst. lra.
  - destruct (leb z x) eqn:Hzx.
    + apply leb_exact_true in Hzx.
      destruct (IH z) as [Hin Hlb]. cbv zeta. split.
      * right. exact Hin.
      * intros y [Hy|Hy]; [subst y | apply Hlb; exact Hy].
        apply Rle_trans with z; [apply Hlb; left; reflexivity | exact Hzx].
    + assert (Hlt : x < z).
      { apply Rnot_le_lt. intros Hle. apply leb_exact_true in Hle. congruence. }
      destruct (IH x) as [Hin Hlb]. cbv zeta. split.
      * destruct Hin as [Hin|Hin]; [left; exact Hin | right; right; exact Hin].
      * intros y [Hy|[Hy|Hy]].
        -- subst y. apply Hlb. left. reflexivity.
        -- subst y. apply Rle_trans with x; [apply Hlb; left; reflexivity | lra].
        -- apply Hlb. right. exact Hy.
Qed.


(** ** The sensitivity sweep *)

(** [numpy.linspace(0.05, 0.25, 5)]: five evenly spaced growth rates. *)
Lemma linspace_growth_rates :
  linspace lit_0_05 lit_0_25 5
  = [5 / 100; 10 / 100; 15 / 100; 20 / 100; 25 / 100].
Proof.
  unfold linspace. cbn [Nat.ltb Nat.leb Nat.sub seq map removelast app].
  exact_arith. cbn [INR]. repeat (f_equal; try lra).
Qed.

(** The comprehension runs [simulate_df] once per growth rate, in order, each
    run of 200 rows starting where the previous one left the generator, 400
    samples further. *)
Lemma avg_profits_of_runs (sales cost_pct tax_pct : R) (grs : list R) :
  forall g : rng R,
  exists avg_profits : list (option R),
    avg_profits_of sales cost_pct tax_pct grs g
    = inr (avg_profits, mkRng (draws g) (pos g + 400 * length grs))
    /\ length avg_profits = length grs
    /\ forall (i : nat) (gr : R),
         nth_error grs i = Some gr ->
         exists (df : DataFrame R) (gi : rng R),
           simulate_df sales gr cost_pct tax_pct 200
             (mkRng (draws g) (pos g + 400 * i)) = inr (df, gi)
           /\ length df = 200%nat
           /\ nth_error avg_profits i = Some (Series_mean (map Profit df)).
Proof.
  induction grs as [|gr0 grs IH]; intros [d p]; cbn [draws pos].
  - exists []. cbn [avg_profits_of length]. unfold ret.
    split; [f_equal; f_equal; f_equal; lia|]. split; [reflexivity|].
    intros [|i] gr H; discriminate.
  - cbn [avg_profits_of]. unfold bind at 1.
    rewrite (simulate_df_finite sales gr0 cost_pct tax_pct 200 _
               (ranges_finite_exact _ _)).
    cbn [draws pos]. unfold bind at 1.
    destruct (IH (mkRng d (p + 2 * Z.to_nat 200))) as [avgs [Hrun [Hlen Hnth]]].
    rewrite Hrun. cbn [draws pos] in *. unfold ret.
    eexists. split; [|split].
    + f_equal. f_equal. f_equal. cbn [length]. lia.
    + cbn [length]. rewrite Hlen. reflexivity.
    + intros [|i] gr Hgr.
      * cbn in Hgr. inversion Hgr. subst gr0.
        rewrite (simulate_df_finite sales gr cost_pct tax_pct 200 _
                   (ranges_finite_exact _ _)).
        cbn [draws pos].
        replace (p + 400 * 0)%nat with p by lia.
        eexists. eexists. split; [reflexivity|]. split.
        -- rewrite length_map, length_seq. reflexivity.
        -- reflexivity.
      * cbn [nth_error] in Hgr. destruct (Hnth i gr Hgr) as [df [gi [Hdf [Hl Hn]]]].
        replace (p + 400 * S i)%nat with (p + 2 * Z.to_nat 200 + 400 * i)%nat by lia.
        exists df, gi. split; [exact Hdf|]. split; [exact Hl|]. exact Hn.
Qed.


End Exact.

(** * Binary64: how far the magnitude of a result can grow

    The primitive floats are specified by [SpecFloat]: a finite number is a
    sign, a mantissa [m] and an exponent [e], of magnitude
    [digits m + e].  Rounding adds at most one to the magnitude of the exact
    result, and overflows only above [emax - prec = 971]. *)

Section Magnitude.

Local Open Scope Z_scope.

Lemma digits2_pos_size (p : positive) : digits2_pos p = Pos.size p.
Proof. induction p; cbn; congruence. Qed.

Lemma Zdigits2_log2 (m : Z) : 0 < m -> Zdigits2 m = Z.log2 m + 1.
Proof.
  destruct m as [|p|p]; try lia. intros _. cbn [Zdigits2].
  destruct p; cbn [digits2_pos Z.log2]; rewrite ?digits2_pos_size; lia.
Qed.

Lemma Zdigits2_nonneg (m : Z) : 0 <= Zdigits2 m.
Proof. destruct m; cbn; lia. Qed.

Lemma Zdigits2_pos (m : Z) : 0 < m -> 1 <= Zdigits2 m.
Proof. destruct m; cbn; lia. Qed.

Lemma Zdigits2_opp (m : Z) : Zdigits2 (- m) = Zdigits2 m.
Proof. destruct m; reflexivity. Qed.

(** |m| < 2^k gives at most k digits. *)
Lemma Zdigits2_le (m k : Z) : 0 < m -> 0 <= k -> m < 2 ^ k -> Zdigits2 m <= k.
Proof.
  intros Hm Hk Hlt. rewrite Zdigits2_log2 by assumption.
  apply Z.log2_lt_pow2 in Hlt; lia.
Qed.

Lemma Zdigits2_gt (m : Z) : 0 < m -> m < 2 ^ Zdigits2 m.
Proof.
  intros Hm. rewrite Zdigits2_log2 by assumption.
  apply Z.log2_spec. assumption.
Qed.

Lemma Zdigits2_succ (m : Z) : 0 <= m -> Zdigits2 (m + 1) <= Zdigits2 m + 1.
Proof.
  intros Hm. destruct (Z.eq_dec m 0) as [->|Hne]; [cbn; lia|].
  rewrite !Zdigits2_log2 by lia.
  pose proof (Z.log2_succ_le m). unfold Z.succ in *. lia.
Qed.

Lemma Zdigits2_mul (a b : positive) :
  Zdigits2 (Zpos (a * b)) <= Zdigits2 (Zpos a) + Zdigits2 (Zpos b).
Proof.
  rewrite !Zdigits2_log2 by lia.
  pose proof (Z.log2_mul_above (Zpos a) (Zpos b)).
  rewrite Pos2Z.inj_mul. lia.
Qed.

Lemma shr_1_digits (r : shr_record) :
  0 <= shr_m r ->
  0 <= shr_m (shr_1 r)
  /\ Zdigits2 (shr_m (shr_1 r)) = Z.max 0 (Zdigits2 (shr_m r) - 1).
Proof.
  destruct r as [m rb sb]. cbn [shr_m]. intros Hm.
  destruct m as [|p|p]; [cbn; lia | | lia].
  destruct p; cbn [shr_1 shr_m Zdigits2 digits2_pos]; split; lia.
Qed.

Lemma iter_shr_1_digits (p : positive) :
  forall r : shr_record,
    0 <= shr_m r ->
    0 <= shr_m (iter_pos shr_1 p r)
    /\ Zdigits2 (shr_m (iter_pos shr_1 p r)) = Z.max 0 (Zdigits2 (shr_m r) - Zpos p).
Proof.
  induction p as [p IH|p IH|]; intros r Hr; cbn [iter_pos].
  - destruct (shr_1_digits r Hr) as [H1 D1].
    destruct (IH _ H1) as [H2 D2]. destruct (IH _ H2) as [H3 D3].
    split; [exact H3|]. rewrite D3, D2, D1. lia.
  - destruct (IH _ Hr) as [H2 D2]. destruct (IH _ H2) as [H3 D3].
    split; [exact H3|]. rewrite D3, D2. lia.
  - apply shr_1_digits. exact Hr.
Qed.

Lemma fexp_binary64 (x : Z) : fexp prec emax x = Z.max (x - 53) (-1074).
Proof. reflexivity. Qed.

Lemma shr_record_of_loc_m (m : Z) (l : location) : shr_m (shr_record_of_loc m l) = m.
Proof. destruct l as [|[| |]]; reflexivity. Qed.

(** One normalising shift: the exponent becomes [max e (fexp D)], and the
    magnitude does not grow beyond [max D e']. *)
Lemma shr_fexp_bound (m e : Z) (l : location) :
  0 <= m ->
  0 <= shr_m (fst (shr_fexp prec emax m e l))
  /\ snd (shr_fexp prec emax m e l) = Z.max e (fexp prec emax (Zdigits2 m + e))
  /\ Zdigits2 (shr_m (fst (shr_fexp prec emax m e l))) + snd (shr_fexp prec emax m e l)
     <= Z.max (Zdigits2 m + e) (snd (shr_fexp prec emax m e l)).
Proof.
  intros Hm. unfold shr_fexp, shr.
  set (n := fexp prec emax (Zdigits2 m + e) - e).
  assert (Hn : fexp prec emax (Zdigits2 m + e) = e + n) by (unfold n; lia).
  rewrite Hn. clearbody n. clear Hn.
  destruct n as [|p|p]; cbn [fst snd]; rewrite ?shr_record_of_loc_m.
  - repeat split; lia.
  - destruct (iter_shr_1_digits p (shr_record_of_loc m l)) as [H1 D1].
    { rewrite shr_record_of_loc_m. exact Hm. }
    rewrite shr_record_of_loc_m in D1.
    split; [exact H1|]. split; [lia|]. rewrite D1. lia.
  - repeat split; lia.
Qed.

Lemma round_nearest_even_bound (m : Z) (l : location) :
  0 <= m ->
  0 <= round_nearest_even m l
  /\ Zdigits2 (round_nearest_even m l) <= Zdigits2 m + 1.
Proof.
  intros Hm. pose proof (Zdigits2_succ m Hm) as Hs.
  unfold round_nearest_even.
  destruct l as [|[| |]]; try destruct (Z.even m); split; lia.
Qed.

(** Rounding a positive mantissa of magnitude at most [K]: no overflow as
    long as [K <= emax - prec], and the magnitude grows by one at most. *)
Lemma binary_round_aux_bound (s : bool) (m e : Z) (l : location) (K : Z) :
  0 < m ->
  Zdigits2 m + e <= K ->
  -1074 <= K <= 971 ->
  mag_leb (K + 1) (binary_round_aux prec emax s m e l) = true.
Proof.
  intros Hm HD HK. unfold binary_round_aux.
  pose proof (Zdigits2_pos m Hm) as Hd.
  destruct (shr_fexp_bound m e l) as [H1 [E1 D1]]; [lia|].
  destruct (shr_fexp prec emax m e l) as [mrs1 e1]. cbn [fst snd] in *.
  destruct (round_nearest_even_bound (shr_m mrs1) (loc_of_shr_record mrs1) H1)
    as [H2 D2].
  set (m2 := round_nearest_even (shr_m mrs1) (loc_of_shr_record mrs1)) in *.
  destruct (shr_fexp_bound m2 e1 loc_Exact H2) as [H3 [E3 D3]].
  destruct (shr_fexp prec emax m2 e1 loc_Exact) as [mrs3 e3]. cbn [fst snd] in *.
  rewrite fexp_binary64 in E1, E3.
  destruct (shr_m mrs3) as [|p|p] eqn:Hm3; [reflexivity | | lia].
  assert (He3 : e3 <= 971) by lia.
  change (emax - prec) with 971.
  apply Z.leb_le in He3. rewrite He3. cbn [mag_leb].
  apply Z.leb_le. cbn [Zdigits2] in D3. lia.
Qed.

Lemma digits2_pos_iter_xO (m d : positive) :
  Zpos (digits2_pos (Pos.iter xO m d)) = Zpos (digits2_pos m) + Zpos d.
Proof.
  induction d as [|d IH] using Pos.peano_ind.
  - cbn. lia.
  - rewrite Pos.iter_succ. cbn [digits2_pos]. lia.
Qed.

(** Aligning a mantissa on a smaller exponent keeps the magnitude. *)
Lemma shl_align_magnitude (mx : positive) (ex ex' : Z) :
  Zpos (digits2_pos (fst (shl_align mx ex ex'))) + snd (shl_align mx ex ex')
  = Zpos (digits2_pos mx) + ex.
Proof.
  unfold shl_align. destruct (ex' - ex) as [|d|d] eqn:Hd; cbn [fst snd]; try lia.
  rewrite digits2_pos_iter_xO. lia.
Qed.

Lemma shl_align_exponent (mx : positive) (ex ez : Z) :
  ez <= ex -> snd (shl_align mx ex ez) = ez.
Proof.
  intros Hle. unfold shl_align. destruct (ez - ex) as [|d|d] eqn:Hd; cbn [snd]; lia.
Qed.

Lemma binary_round_bound (s : bool) (m : positive) (e K : Z) :
  Zpos (digits2_pos m) + e <= K ->
  -1074 <= K <= 971 ->
  mag_leb (K + 1) (binary_round prec emax s m e) = true.
Proof.
  intros HD HK. unfold binary_round.
  pose proof (shl_align_magnitude m e (fexp prec emax (Zpos (digits2_pos m) + e))) as Hal.
  destruct (shl_align m e (fexp prec emax (Zpos (digits2_pos m) + e))) as [mz ez].
  cbn [fst snd] in Hal.
  apply binary_round_aux_bound; cbn [Zdigits2]; lia.
Qed.

Lemma binary_normalize_bound (m e K : Z) :
  (m = 0 \/ Zdigits2 m + e <= K) ->
  -1074 <= K <= 971 ->
  mag_leb (K + 1) (binary_normalize prec emax m e false) = true.
Proof.
  intros HD HK. destruct m as [|p|p]; cbn [binary_normalize]; [reflexivity | |];
    apply binary_round_bound; cbn [Zdigits2] in HD; lia.
Qed.

Lemma mag_leb_mono (K K' : Z) (x : spec_float) :
  K <= K' -> mag_leb K x = true -> mag_leb K' x = true.
Proof.
  intros HK. destruct x as [s|s| |s m e]; cbn [mag_leb]; auto.
  rewrite !Z.leb_le. lia.
Qed.

Lemma SFopp_bound (K : Z) (x : spec_float) :
  mag_leb K (SFopp x) = mag_leb K x.
Proof. destruct x; reflexivity. Qed.

Lemma SFmul_bound (a b : Z) (x y : spec_float) :
  mag_leb a x = true -> mag_leb b y = true ->
  -1074 <= a + b <= 971 ->
  mag_leb (a + b + 1) (SFmul prec emax x y) = true.
Proof.
  intros Hx Hy HK.
  destruct x as [sx|sx| |sx mx ex]; destruct y as [sy|sy| |sy my ey];
    cbn [mag_leb SFmul] in *; try discriminate; try reflexivity.
  apply Z.leb_le in Hx, Hy.
  apply binary_round_aux_bound; [lia | | lia].
  pose proof (Zdigits2_mul mx my) as Hmul. cbn [Zdigits2] in Hmul. cbn [Zdigits2]. lia.
Qed.

Lemma Zdigits2_abs (m : Z) : Zdigits2 (Z.abs m) = Zdigits2 m.
Proof. destruct m; reflexivity. Qed.

Lemma Zdigits2_sum (u v k : Z) :
  0 <= k -> Z.abs u < 2 ^ k -> Z.abs v < 2 ^ k ->
  u + v = 0 \/ Zdigits2 (u + v) <= k + 1.
Proof.
  intros Hk Hu Hv. destruct (Z.eq_dec (u + v) 0) as [H0|Hne]; [left; exact H0|].
  right. rewrite <- Zdigits2_abs. apply Zdigits2_le; [lia | lia |].
  replace (k + 1) with (Z.succ k) by lia.
  rewrite Z.pow_succ_r by lia. lia.
Qed.

Lemma cond_Zopp_abs (s : bool) (p : positive) : Z.abs (cond_Zopp s (Zpos p)) = Zpos p.
Proof. destruct s; reflexivity. Qed.

(** An aligned mantissa of a number of magnitude at most [K]. *)
Lemma shl_align_lt (mx : positive) (ex ez K : Z) :
  ez <= ex ->
  Zpos (digits2_pos mx) + ex <= K ->
  0 <= K - ez /\ Zpos (fst (shl_align mx ex ez)) < 2 ^ (K - ez).
Proof.
  intros Hle HD.
  pose proof (shl_align_magnitude mx ex ez) as Hmag.
  rewrite (shl_align_exponent mx ex ez Hle) in Hmag.
  set (az := fst (shl_align mx ex ez)) in *.
  pose proof (Zdigits2_gt (Zpos az) ltac:(lia)) as Hgt. cbn [Zdigits2] in Hgt.
  split; [lia|].
  apply Z.lt_le_trans with (2 ^ Zpos (digits2_pos az)); [exact Hgt|].
  apply Z.pow_le_mono_r; lia.
Qed.

Lemma aligned_sum_bound (sx sy : bool) (mx my : positive) (ex ey K : Z) (neg : bool) :
  Zpos (digits2_pos mx) + ex <= K ->
  Zpos (digits2_pos my) + ey <= K ->
  -1075 <= K <= 970 ->
  let ez := Z.min ex ey in
  let u := cond_Zopp sx (Zpos (fst (shl_align mx ex ez))) in
  let v := cond_Zopp sy (Zpos (fst (shl_align my ey ez))) in
  mag_leb (K + 2)
    (binary_normalize prec emax (if neg then u - v else u + v) ez false) = true.
Proof.
  intros Hx Hy HK ez u v.
  destruct (shl_align_lt mx ex ez K ltac:(unfold ez; lia) Hx) as [Hk Hu].
  destruct (shl_align_lt my ey ez K ltac:(unfold ez; lia) Hy) as [_ Hv].
  replace (K + 2) with (K + 1 + 1) by lia.
  apply binary_normalize_bound; [|lia].
  assert (Hsum : forall w, Z.abs w < 2 ^ (K - ez) ->
                           u + w = 0 \/ Zdigits2 (u + w) + ez <= K + 1).
  { intros w Hw.
    destruct (Zdigits2_sum u w (K - ez) Hk) as [H0|Hd]; try assumption.
    - unfold u. rewrite cond_Zopp_abs. exact Hu.
    - left. exact H0.
    - right. lia. }
  destruct neg.
  - replace (u - v) with (u + - v) by lia. apply Hsum.
    rewrite Z.abs_opp. unfold v. rewrite cond_Zopp_abs. exact Hv.
  - apply Hsum. unfold v. rewrite cond_Zopp_abs. exact Hv.
Qed.

Lemma SFadd_bound (K : Z) (x y : spec_float) :
  mag_leb K x = true -> mag_leb K y = true ->
  -1075 <= K <= 970 ->
  mag_leb (K + 2) (SFadd prec emax x y) = true.
Proof.
  intros Hx Hy HK.
  destruct x as [sx|sx| |sx mx ex]; destruct y as [sy|sy| |sy my ey];
    cbn [mag_leb] in Hx, Hy; try discriminate; cbn [SFadd].
  - destruct sx, sy; reflexivity.
  - cbn [mag_leb]. apply Z.leb_le. apply Z.leb_le in Hy. lia.
  - cbn [mag_leb]. apply Z.leb_le. apply Z.leb_le in Hx. lia.
  - apply Z.leb_le in Hx, Hy.
    exact (aligned_sum_bound sx sy mx my ex ey K false Hx Hy HK).
Qed.

Lemma SFsub_bound (K : Z) (x y : spec_float) :
  mag_leb K x = true -> mag_leb K y = true ->
  -1075 <= K <= 970 ->
  mag_leb (K + 2) (SFsub prec emax x y) = true.
Proof.
  intros Hx Hy HK.
  destruct x as [sx|sx| |sx mx ex]; destruct y as [sy|sy| |sy my ey];
    cbn [mag_leb] in Hx, Hy; try discriminate; cbn [SFsub].
  - destruct sx, sy; reflexivity.
  - cbn [mag_leb]. apply Z.leb_le. apply Z.leb_le in Hy. lia.
  - cbn [mag_leb]. apply Z.leb_le. apply Z.leb_le in Hx. lia.
  - apply Z.leb_le in Hx, Hy.
    exact (aligned_sum_bound sx sy mx my ex ey K true Hx Hy HK).
Qed.

End Magnitude.

(** ** The primitive operations *)

Section Within.

Local Open Scope Z_scope.
Local Open Scope float_scope.

Lemma within_mono (K K' : Z) (x : float) :
  (K <= K')%Z -> within K x = true -> within K' x = true.
Proof. apply mag_leb_mono. Qed.

Lemma within_opp (K : Z) (x : float) : within K (- x) = within K x.
Proof. unfold within. rewrite opp_spec. apply SFopp_bound. Qed.

(** A sum or a difference of two numbers below [2^K] is below [2^(K+2)]; a
    product of numbers below [2^a] and [2^b] is below [2^(a+b+1)]. *)
Lemma within_add (a b K : Z) (x y : float) :
  within a x = true -> within b y = true ->
  (a <= K)%Z -> (b <= K)%Z -> (-1075 <= K <= 970)%Z ->
  within (K + 2) (x + y) = true.
Proof.
  intros Hx Hy Ha Hb HK. unfold within. rewrite add_spec.
  apply SFadd_bound; [| | exact HK].
  - exact (within_mono a K x Ha Hx).
  - exact (within_mono b K y Hb Hy).
Qed.

Lemma within_sub (a b K : Z) (x y : float) :
  within a x = true -> within b y = true ->
  (a <= K)%Z -> (b <= K)%Z -> (-1075 <= K <= 970)%Z ->
  within (K + 2) (x - y) = true.
Proof.
  intros Hx Hy Ha Hb HK. unfold within. rewrite sub_spec.
  apply SFsub_bound; [| | exact HK].
  - exact (within_mono a K x Ha Hx).
  - exact (within_mono b K y Hb Hy).
Qed.

Lemma within_mul (a b : Z) (x y : float) :
  within a x = true -> within b y = true ->
  (-1074 <= a + b <= 971)%Z ->
  within (a + b + 1) (x * y) = true.
Proof.
  intros Hx Hy HK. unfold within. rewrite mul_spec. apply SFmul_bound; assumption.
Qed.

Lemma SFeqb_refl_finite (x : spec_float) (K : Z) :
  mag_leb K x = true -> SFeqb x x = true.
Proof.
  destruct x as [s|s| |s m e]; cbn [mag_leb]; try discriminate; intros _.
  - reflexivity.
  - unfold SFeqb, SFcompare. rewrite Z.compare_refl.
    change (Pos.compare_cont Eq m m) with (Pos.compare m m).
    rewrite Pos.compare_refl. destruct s; reflexivity.
Qed.

(** A number of bounded magnitude is finite. *)
Lemma within_is_finite (K : Z) (x : float) :
  within K x = true -> is_finite x = true.
Proof.
  unfold within. intros Hx.
  unfold is_finite, is_nan, is_infinity.
  rewrite !eqb_spec, abs_spec.
  rewrite (SFeqb_refl_finite _ K Hx).
  change (Prim2SF infinity) with (S754_infinity false).
  destruct (Prim2SF x) as [s|s| |s m e]; cbn [mag_leb] in Hx; try discriminate;
    reflexivity.
Qed.

(** A float of absolute value below the power of two [c = 2^(ec + 52)]. *)
Lemma abs_ltb_within (x c : float) (ec : Z) :
  Prim2SF c = S754_finite false 4503599627370496 ec ->
  (abs x <? c) = true ->
  within (ec + 52) x = true.
Proof.
  intros Hc Hlt. rewrite ltb_spec, abs_spec, Hc in Hlt.
  pose proof (Prim2SF_valid x) as Hv. unfold within.
  destruct (Prim2SF x) as [s|s| |s m e]; cbn [SFabs] in Hlt.
  - reflexivity.
  - discriminate Hlt.
  - discriminate Hlt.
  - cbn [mag_leb]. apply Z.leb_le.
    cbn [valid_binary] in Hv. unfold bounded, canonical_mantissa in Hv.
    apply andb_prop in Hv. destruct Hv as [Hcan _].
    apply Z.eqb_eq in Hcan. rewrite fexp_binary64 in Hcan.
    unfold SFltb, SFcompare in Hlt.
    destruct (Z.compare e ec) eqn:Hcmp.
    + apply Z.compare_eq in Hcmp. subst ec.
      destruct (Pos.compare_cont Eq m 4503599627370496) eqn:Hm;
        try discriminate Hlt.
      assert (Hm' : (m < 4503599627370496)%positive) by exact Hm.
      clear Hlt Hc Hm.
      assert (Hpos : (0 < Zpos m)%Z) by reflexivity.
      assert (H52 : (0 <= 52)%Z) by discriminate.
      pose proof (Zdigits2_le (Zpos m) 52 Hpos H52) as Hd.
      cbn [Zdigits2] in Hd.
      assert (Hpow : (Zpos m < 2 ^ 52)%Z)
        by (change (2 ^ 52)%Z with 4503599627370496%Z; exact Hm').
      specialize (Hd Hpow). clear Hpow Hm' Hpos H52. lia.
    + change (e < ec)%Z in Hcmp. clear Hc Hlt. lia.
    + discriminate Hlt.
Qed.

End Within.

(** ** One iteration of the loop at binary64 *)

Section Binary64Trial.

Local Open Scope Z_scope.

Variables base_sales gr cost_pct tax_pct r1 r2 : float.

Hypothesis base_small : within 950 base_sales = true.
Hypothesis gr_small : within 0 gr = true.
Hypothesis cost_small : within 0 cost_pct = true.
Hypothesis tax_small : within 0 tax_pct = true.
Hypothesis r1_small : within 0 r1 = true.
Hypothesis r2_small : within 0 r2 = true.

Lemma one_within : within 1 1%float = true.
Proof. vm_compute. reflexivity. Qed.

Lemma lit_0_05_within : within (-4) 0x1.999999999999ap-5%float = true.
Proof. vm_compute. reflexivity. Qed.

(** The range of the growth perturbation, [gr - (-gr)]. *)
Lemma growth_range_within : within 2 (gr - - gr)%float = true.
Proof.
  assert (Hn : within 0 (- gr)%float = true) by (rewrite within_opp; exact gr_small).
  exact (within_sub 0 0 0 _ _ gr_small Hn ltac:(lia) ltac:(lia) ltac:(lia)).
Qed.

Lemma cost_low_within :
  within 2 (cost_pct - 0x1.999999999999ap-5)%float = true.
Proof.
  exact (within_sub 0 (-4) 0 _ _ cost_small lit_0_05_within
           ltac:(lia) ltac:(lia) ltac:(lia)).
Qed.

Lemma cost_high_within :
  within 2 (cost_pct + 0x1.999999999999ap-5)%float = true.
Proof.
  exact (within_add 0 (-4) 0 _ _ cost_small lit_0_05_within
           ltac:(lia) ltac:(lia) ltac:(lia)).
Qed.

(** The range of the cost ratio, [(cost_pct + 0.05) - (cost_pct - 0.05)]. *)
Lemma cost_range_within :
  within 4 ((cost_pct + 0x1.999999999999ap-5)
            - (cost_pct - 0x1.999999999999ap-5))%float = true.
Proof.
  exact (within_sub 2 2 2 _ _ cost_high_within cost_low_within
           ltac:(lia) ltac:(lia) ltac:(lia)).
Qed.

Lemma ranges_finite_binary64 : ranges_finite gr cost_pct = true.
Proof.
  unfold ranges_finite. cbn [isfinite sub add opp lit_0_05 float_Number].
  rewrite (within_is_finite 2 _ growth_range_within).
  rewrite (within_is_finite 4 _ cost_range_within).
  reflexivity.
Qed.

Lemma revenue_within :
  within 958 (Revenue (trial_of base_sales gr cost_pct tax_pct r1 r2)) = true.
Proof.
  unfold trial_of. cbn [Revenue mul sub add opp one float_Number].
  assert (Hn : within 0 (- gr)%float = true) by (rewrite within_opp; exact gr_small).
  pose proof (within_mul 2 0 _ _ growth_range_within r1_small ltac:(lia)) as Hp.
  pose proof (within_add 0 (2 + 0 + 1) 3 _ _ Hn Hp
                ltac:(lia) ltac:(lia) ltac:(lia)) as Hu.
  pose proof (within_add 1 (3 + 2) 5 _ _ one_within Hu
                ltac:(lia) ltac:(lia) ltac:(lia)) as Hs.
  exact (within_mul 950 (5 + 2) _ _ base_small Hs ltac:(lia)).
Qed.

Lemma cost_within :
  within 966 (Cost (trial_of base_sales gr cost_pct tax_pct r1 r2)) = true.
Proof.
  pose proof revenue_within as Hrev. revert Hrev.
  unfold trial_of. cbn [Revenue Cost mul sub add opp one lit_0_05 float_Number].
  intros Hrev.
  pose proof (within_mul 4 0 _ _ cost_range_within r2_small ltac:(lia)) as Hp.
  pose proof (within_add 2 (4 + 0 + 1) 5 _ _ cost_low_within Hp
                ltac:(lia) ltac:(lia) ltac:(lia)) as Hu.
  exact (within_mul 958 (5 + 2) _ _ Hrev Hu ltac:(lia)).
Qed.

Lemma profit_within :
  within 972 (Profit (trial_of base_sales gr cost_pct tax_pct r1 r2)) = true.
Proof.
  pose proof revenue_within as Hrev. pose proof cost_within as Hcost.
  revert Hrev Hcost.
  unfold trial_of. cbn [Revenue Cost Profit mul sub add opp one lit_0_05 float_Number].
  intros Hrev Hcost.
  pose proof (within_sub 958 966 966 _ _ Hrev Hcost
                ltac:(lia) ltac:(lia) ltac:(lia)) as Hd.
  pose proof (within_sub 1 0 1 _ _ one_within tax_small
                ltac:(lia) ltac:(lia) ltac:(lia)) as Ht.
  exact (within_mul (966 + 2) (1 + 2) _ _ Hd Ht ltac:(lia)).
Qed.

End Binary64Trial.


(** * The engine at binary64: evaluations *)

Section Binary64.

Set Warnings "-inexact-float".

Local Open Scope float_scope.

(** The default controls of the dashboard, every unit sample being 0.5. *)
Example simulate_df_default_controls :
  simulate_df 500000 0.1 0.4 0.2 2 (constant_rng 0.5)
  = inr ([mkTrial 500000 200000 240000; mkTrial 500000 200000 240000],
         mkRng (fun _ => 0.5) 4).
Proof. vm_compute. reflexivity. Qed.

Example linspace_growth_rates_binary64 :
  linspace lit_0_05 lit_0_25 5
  = [0.05; 0.1; 0.15000000000000002; 0.2; 0.25].
Proof. vm_compute. reflexivity. Qed.

Example run_and_save_once_one_run :
  run_and_save_once 500000 0.1 0.4 0.2 1 (constant_rng 0.5)
  = inr (([mkTrial 500000 200000 240000],
          mkMetrics (Some 240000) (Some 240000) (Some 240000) None),
         mkRng (fun _ => 0.5) 2).
Proof. vm_compute. reflexivity. Qed.

(** The scenario of C8 at the two extreme unit samples, 0 and the largest
    one below 1: the bounds of the claim are met at binary64 too. *)
Example simulate_df_scenario_binary64 :
  simulate_df 500000 0 0.4 0.2 1 (constant_rng 0)
  = inr ([mkTrial 500000 175000.00000000003 260000], mkRng (fun _ => 0) 2)
  /\ simulate_df 500000 0 0.4 0.2 1 (constant_rng 0x1.fffffffffffffp-1)
     = inr ([mkTrial 500000 225000 220000],
            mkRng (fun _ => 0x1.fffffffffffffp-1) 2).
Proof. split; vm_compute; reflexivity. Qed.

(** The witness of C1: the default controls, 300 runs. *)
Lemma simulate_df_returns_n_trials_witness :
  exists (df : DataFrame float) (g' : rng float),
    simulate_df 500000 0.1 0.4 0.2 300 (constant_rng 0.5) = inr (df, g')
    /\ Z.of_nat (length df) = 300%Z.
Proof.
  apply simulate_df_returns_n_trials; [vm_compute; reflexivity | lia].
Defined.

(** The witness of C2: the row of a run of the default controls. *)
Lemma simulate_df_profit_formula_witness :
  Profit (mkTrial 500000 200000 240000)
  = mul (sub (Revenue (mkTrial 500000 200000 240000))
             (Cost (mkTrial 500000 200000 240000)))
        (sub one 0.2).
Proof.
  apply (simulate_df_profit_formula 500000 0.1 0.4 0.2 1
           (constant_rng 0.5) (mkRng (fun _ => 0.5) 2)
           [mkTrial 500000 200000 240000]);
    [vm_compute; reflexivity | left; reflexivity].
Defined.

(** C3 fails on the code: with a run count of zero, or a negative one,
    [simulate_df] returns the empty data frame; and a NaN base is not rejected
    either, the run returns a row of NaN. *)
Lemma simulate_df_accepts_invalid_parameters :
  simulate_df 500000 0.1 0.4 0.2 0 (constant_rng 0.5)
  = inr ([], constant_rng 0.5)
  /\ simulate_df 500000 0.1 0.4 0.2 (-3) (constant_rng 0.5)
     = inr ([], constant_rng 0.5)
  /\ simulate_df nan 0.1 0.4 0.2 1 (constant_rng 0.5)
     = inr ([mkTrial nan nan nan], mkRng (fun _ => 0.5) 2).
Proof. repeat split; vm_compute; reflexivity. Qed.

(** The witness of C3 as the code has it. *)
Lemma simulate_df_nonpositive_runs_witness :
  simulate_df 500000 0.1 0.4 0.2 (-3) (constant_rng 0.5)
  = inr ([], constant_rng 0.5).
Proof.
  apply simulate_df_nonpositive_runs. lia.
Defined.

(** C4 fails on the code: with no row, [run_and_save_once] raises nothing and
    returns the four metrics, each of them NaN. *)
Lemma run_and_save_once_empty_frame :
  run_and_save_once 500000 0.1 0.4 0.2 0 (constant_rng 0.5)
  = inr (([], mkMetrics None None None None), constant_rng 0.5).
Proof. vm_compute. reflexivity. Qed.

(** The witness of C4 as the code has it. *)
Lemma metrics_of_empty_witness :
  metrics_of (@nil (Trial float)) = mkMetrics None None None None.
Proof.
  apply metrics_of_empty. reflexivity.
Defined.

(** C9 fails on the code: the base 1.7e308 is a finite positive number, the
    other parameters are in their domains, and the unit sample 0.99 makes the
    revenue [1.7e308 * 1.49] overflow to infinity; the cost is infinite as
    well, and the profit [(inf - inf) * 0.8] is NaN. *)
Lemma simulate_df_profit_not_finite :
  is_finite 1.7e308 = true
  /\ (0 <? 1.7e308) = true
  /\ simulate_df 1.7e308 0.5 0.4 0.2 1 (constant_rng 0.99)
     = inr ([mkTrial infinity infinity nan], mkRng (fun _ => 0.99) 2)
  /\ isfinite (Profit (mkTrial infinity infinity nan)) = false.
Proof. repeat split; vm_compute; reflexivity. Qed.

(** C9, as the code has it.  At binary64, for a base of absolute value below
    [2^950] (about [10^286]) and a growth rate, a cost fraction, a tax
    fraction and unit samples of absolute value below 1, [simulate_df] raises
    nothing, and the Revenue, the Cost and the Profit of every row it returns
    are finite: neither NaN nor infinite. *)
Theorem simulate_df_binary64_finite
    (base_sales gr cost_pct tax_pct : float) (n : Z) (g : rng float) :
  (abs base_sales <? 0x1p950) = true ->
  (abs gr <? 1) = true ->
  (abs cost_pct <? 1) = true ->
  (abs tax_pct <? 1) = true ->
  (forall i : nat, (abs (draws g i) <? 1) = true) ->
  exists (df : DataFrame float) (g' : rng float),
    simulate_df base_sales gr cost_pct tax_pct n g = inr (df, g')
    /\ forall t : Trial float,
         In t df ->
         is_finite (Revenue t) = true
         /\ is_finite (Cost t) = true
         /\ is_finite (Profit t) = true.
Proof.
  intros Hbase Hgr Hcost Htax Hdraws.
  assert (Hone : Prim2SF 1 = S754_finite false 4503599627370496 (-52))
    by (vm_compute; reflexivity).
  assert (Hbig : Prim2SF 0x1p950 = S754_finite false 4503599627370496 898)
    by (vm_compute; reflexivity).
  pose proof (abs_ltb_within _ _ _ Hbig Hbase) as Wbase.
  pose proof (abs_ltb_within _ _ _ Hone Hgr) as Wgr.
  pose proof (abs_ltb_within _ _ _ Hone Hcost) as Wcost.
  pose proof (abs_ltb_within _ _ _ Hone Htax) as Wtax.
  assert (Wdraws : forall i, within 0 (draws g i) = true)
    by (intros i; exact (abs_ltb_within _ _ _ Hone (Hdraws i))).
  change (within 950 base_sales = true) in Wbase.
  change (within 0 gr = true) in Wgr.
  change (within 0 cost_pct = true) in Wcost.
  change (within 0 tax_pct = true) in Wtax.
  rewrite (simulate_df_finite base_sales gr cost_pct tax_pct n g
             (ranges_finite_binary64 gr cost_pct Wgr Wcost)).
  eexists. eexists. split; [reflexivity|].
  intros t Hin. apply in_map_iff in Hin. destruct Hin as [j [Hj _]]. subst t.
  unfold row_at. repeat split.
  - apply (within_is_finite 958). apply revenue_within; auto.
  - apply (within_is_finite 966). apply cost_within; auto.
  - apply (within_is_finite 972). apply profit_within; auto.
Qed.

(** The witness of C9 as the code has it: the default controls. *)
Lemma simulate_df_binary64_finite_witness :
  exists (df : DataFrame float) (g' : rng float),
    simulate_df 500000 0.1 0.4 0.2 300 (constant_rng 0.5) = inr (df, g')
    /\ forall t : Trial float,
         In t df ->
         is_finite (Revenue t) = true
         /\ is_finite (Cost t) = true
         /\ is_finite (Profit t) = true.
Proof.
  apply simulate_df_binary64_finite;
    try (intros i); vm_compute; reflexivity.
Defined.

End Binary64.

(** * The engine in exact arithmetic: a run of the default controls *)

Section ExactRun.

Local Open Scope R_scope.

Lemma half_rng_unit_samples : unit_samples half_rng.
Proof. intros i. cbn. lra. Qed.

Lemma half_run (tax_pct : R) :
  simulate_df 500000 (1 / 10) (4 / 10) tax_pct 1 half_rng
  = inr ([half_row tax_pct], mkRng (fun _ => 1 / 2) 2).
Proof. reflexivity. Qed.





End ExactRun.

(** * More about [simulate_df], at every instance of the arithmetic *)

Section GenericRuns.

Context {A : Type} {num : Number A}.

Variables base_sales gr cost_pct tax_pct : A.

Local Abbreviation run := (simulate_df base_sales gr cost_pct tax_pct).

Local Abbreviation row := (row_at base_sales gr cost_pct tax_pct).

Lemma simulate_loop_raises (k : nat) (rows : list (Trial A)) (g : rng A) :
  ranges_finite gr cost_pct = false ->
  simulate_loop base_sales gr cost_pct tax_pct (S k) rows g = inl OverflowError.
Proof.
  intros Hinf. cbn [simulate_loop]. unfold bind at 1. unfold ranges_finite in Hinf.
  destruct (isfinite (sub gr (opp gr))) eqn:Hgr.
  - rewrite uniform_finite by exact Hgr. unfold bind at 1.
    rewrite uniform_not_finite by exact Hinf. reflexivity.
  - rewrite uniform_not_finite by exact Hgr. reflexivity.
Qed.

(** [simulate_df] raises exactly when it has to sample, [n_runs >= 1], from a
    range that is not finite; the exception is NumPy's [OverflowError]. *)
Theorem simulate_df_raises_iff (n : Z) (g : rng A) :
  run n g = inl OverflowError
  <-> (1 <= n)%Z /\ ranges_finite gr cost_pct = false.
Proof.
  unfold simulate_df. split.
  - intros Hrun. destruct (Z.to_nat n) as [|k] eqn:Hk; [discriminate|].
    split; [lia|].
    destruct (ranges_finite gr cost_pct) eqn:Hfin; [|reflexivity].
    rewrite (simulate_loop_rows base_sales gr cost_pct tax_pct (S k) Hfin) in Hrun.
    discriminate.
  - intros [Hn Hinf]. destruct (Z.to_nat n) as [|k] eqn:Hk; [lia|].
    apply simulate_loop_raises. exact Hinf.
Qed.

(** A run that returns has consumed exactly two unit samples per row, in
    order, and has left the sequence of samples as it was. *)
Theorem simulate_df_consumes (n : Z) (g g' : rng A) (df : DataFrame A) :
  run n g = inr (df, g') ->
  draws g' = draws g
  /\ pos g' = (pos g + 2 * length df)%nat
  /\ length df = Z.to_nat n.
Proof.
  intros Hrun. apply simulate_df_rows in Hrun. destruct Hrun as [Hdf Hg].
  subst df g'. rewrite length_map, length_seq. cbn [draws pos]. auto.
Qed.

(** The outcome of a run depends on the generator only through the
    [2 * n_runs] samples after its cursor: two generators that agree on
    them give the same rows, or the same exception. *)
Theorem simulate_df_local (n : Z) (g1 g2 : rng A) :
  (forall i : nat,
      (i < 2 * Z.to_nat n)%nat ->
      draws g1 (pos g1 + i) = draws g2 (pos g2 + i)) ->
  outcome (run n g1) = outcome (run n g2).
Proof.
  intros Hsame. destruct (ranges_finite gr cost_pct) eqn:Hfin.
  - rewrite !(simulate_df_finite base_sales gr cost_pct tax_pct n _ Hfin).
    cbn [outcome]. f_equal. apply map_ext_in. intros j Hj.
    apply in_seq in Hj. unfold row_at.
    rewrite <- !Nat.add_assoc.
    rewrite (Hsame (2 * j)%nat), (Hsame (2 * j + 1)%nat) by lia.
    reflexivity.
  - unfold simulate_df. destruct (Z.to_nat n) as [|k]; [reflexivity|].
    rewrite !simulate_loop_raises by exact Hfin. reflexivity.
Qed.

Lemma map_seq_offset {X : Type} (f : nat -> X) (len start : nat) :
  map f (seq start len) = map (fun j => f (start + j)%nat) (seq 0 len).
Proof.
  revert start. induction len as [|len IH]; intros start; [reflexivity|].
  cbn [seq map]. rewrite Nat.add_0_r. f_equal.
  rewrite IH. rewrite <- seq_shift, map_map.
  apply map_ext. intros j. f_equal. lia.
Qed.

(** A run of [n1 + n2] rows is a run of [n1] rows followed, on the generator
    it leaves, by a run of [n2] rows: the rows are those of the first run,
    then those of the second, and so is the exception if there is one. *)
Theorem simulate_df_split (n1 n2 : Z) (g : rng A) :
  (0 <= n1)%Z ->
  (0 <= n2)%Z ->
  run (n1 + n2) g
  = (df1 <- run n1 ;; df2 <- run n2 ;; ret (df1 ++ df2)) g.
Proof.
  intros H1 H2. destruct (ranges_finite gr cost_pct) eqn:Hfin.
  - unfold bind.
    rewrite !(simulate_df_finite base_sales gr cost_pct tax_pct _ _ Hfin).
    cbn [draws pos]. unfold ret.
    rewrite Z2Nat.inj_add by assumption.
    set (k1 := Z.to_nat n1). set (k2 := Z.to_nat n2).
    f_equal. f_equal.
    + rewrite seq_app, map_app. f_equal. cbn [Nat.add].
      rewrite map_seq_offset. apply map_ext. intros j.
      unfold row_at. cbn [draws pos]. f_equal; f_equal; lia.
    + f_equal. lia.
  - unfold bind, simulate_df. rewrite Z2Nat.inj_add by assumption.
    destruct (Z.to_nat n1) as [|k1].
    + cbn [Nat.add simulate_loop]. unfold ret at 1.
      destruct (Z.to_nat n2) as [|k2]; [reflexivity|].
      rewrite !simulate_loop_raises by exact Hfin. reflexivity.
    + cbn [Nat.add]. rewrite !simulate_loop_raises by exact Hfin. reflexivity.
Qed.

End GenericRuns.

(** * More about the rows, in exact arithmetic *)

Section ExactRows.

Local Open Scope R_scope.

Ltac exact_ops :=
  cbn [Revenue Cost Profit zero one lit_0_05 lit_0_25 add sub mul div opp
       square_root of_nat isnan isfinite R_Number] in *.

Lemma trial_of_cost_ratio (base_sales gr cost_pct tax_pct r1 r2 : R) :
  0 <= r2 < 1 ->
  exists u2 : R,
    cost_pct - 5 / 100 <= u2 <= cost_pct + 5 / 100
    /\ Cost (trial_of base_sales gr cost_pct tax_pct r1 r2)
       = Revenue (trial_of base_sales gr cost_pct tax_pct r1 r2) * u2
    /\ Profit (trial_of base_sales gr cost_pct tax_pct r1 r2)
       = Revenue (trial_of base_sales gr cost_pct tax_pct r1 r2) * (1 - u2)
         * (1 - tax_pct).
Proof.
  intros Hr. unfold trial_of. exact_ops.
  eexists. split; [|split; [reflexivity | ring]]. lra.
Qed.




End ExactRows.

(** * More about the metrics and the sweep, in exact arithmetic *)

Section ExactMetrics.

Local Open Scope R_scope.

Ltac exact_ops :=
  cbn [Revenue Cost Profit zero one lit_0_05 lit_0_25 add sub mul div opp
       square_root of_nat isnan isfinite R_Number] in *.

Lemma total_bounds (xs : list R) (lo hi : R) :
  (forall x, In x xs -> lo <= x <= hi) ->
  INR (length xs) * lo <= total xs <= INR (length xs) * hi.
Proof.
  induction xs as [|x xs IH]; intros Hb.
  - cbn. lra.
  - change (total (x :: xs)) with (x + total xs).
    change (length (x :: xs)) with (S (length xs)). rewrite S_INR.
    destruct (Hb x (or_introl eq_refl)) as [H1 H2].
    destruct IH as [I1 I2]; [intros y Hy; apply Hb; right; exact Hy|].
    lra.
Qed.

Lemma Series_mean_exact (x : R) (xs : list R) :
  Series_mean (x :: xs) = Some (arithmetic_mean (x :: xs)).
Proof.
  unfold Series_mean. rewrite dropna_exact, sum_total. reflexivity.
Qed.

Lemma Series_std_exact (xs : list R) :
  Series_std xs
  = (if (length xs <=? 1)%nat then None else Some (sample_stddev xs)).
Proof.
  unfold Series_std. rewrite dropna_exact.
  destruct (length xs <=? 1)%nat; [reflexivity|].
  f_equal. unfold sample_stddev. exact_ops. f_equal. f_equal.
  rewrite sum_total. f_equal. apply map_ext. intros x.
  rewrite sum_total. unfold arithmetic_mean. ring.
Qed.


Lemma total_permutation (xs ys : list R) :
  Permutation xs ys -> total xs = total ys.
Proof.
  induction 1 as [|x xs ys _ IH|x y xs|xs ys zs _ IH1 _ IH2];
    unfold total in *; cbn [fold_right] in *; lra.
Qed.

Lemma running_max_permutation (x y : R) (xs ys : list R) :
  Permutation (x :: xs) (y :: ys) ->
  fold_left (fun m z => if leb m z then z else m) xs x
  = fold_left (fun m z => if leb m z then z else m) ys y.
Proof.
  intros Hp.
  destruct (running_max_spec xs x) as [Hin1 Hub1].
  destruct (running_max_spec ys y) as [Hin2 Hub2]. cbv zeta in *.
  apply Rle_antisym.
  - apply Hub2. apply (Permutation_in _ Hp). exact Hin1.
  - apply Hub1. apply (Permutation_in _ (Permutation_sym Hp)). exact Hin2.
Qed.

Lemma running_min_permutation (x y : R) (xs ys : list R) :
  Permutation (x :: xs) (y :: ys) ->
  fold_left (fun m z => if leb z m then z else m) xs x
  = fold_left (fun m z => if leb z m then z else m) ys y.
Proof.
  intros Hp.
  destruct (running_min_spec xs x) as [Hin1 Hlb1].
  destruct (running_min_spec ys y) as [Hin2 Hlb2]. cbv zeta in *.
  apply Rle_antisym.
  - apply Hlb1. apply (Permutation_in _ (Permutation_sym Hp)). exact Hin2.
  - apply Hlb2. apply (Permutation_in _ Hp). exact Hin1.
Qed.



End ExactMetrics.

(** * The files of a run *)

Section PathFacts.

Local Open Scope string_scope.

Local Notation "a +++ b" := (String.append a b) (at level 60, right associativity).

Lemma append_cancel_l (a x y : String.string) : a +++ x = a +++ y -> x = y.
Proof.
  induction a as [|c a IH]; cbn [String.append]; intros H; [exact H|].
  injection H as H. exact (IH H).
Qed.

Lemma append_assoc (a b c : String.string) : (a +++ b) +++ c = a +++ b +++ c.
Proof.
  induction a as [|x a IH]; cbn [String.append]; [reflexivity|].
  rewrite IH. reflexivity.
Qed.

(** Joining a folder with a relative name prepends a prefix that depends on
    the folder only. *)
Lemma path_join_relative (a : String.string) :
  exists p : String.string,
    forall b : String.string, starts_with_sep b = false -> path_join a b = p +++ b.
Proof.
  unfold path_join. destruct (String.eqb a "" || ends_with_sep a)%bool.
  - exists a. intros b Hb. rewrite Hb. reflexivity.
  - exists (a +++ "/"). intros b Hb. rewrite Hb, append_assoc. reflexivity.
Qed.

(** The four files of a run have four different names, whatever the folder
    and the time stamp: no output of a run overwrites another one. *)
Theorem output_paths_distinct (save_folder ts : String.string) :
  NoDup (output_paths save_folder ts).
Proof.
  unfold output_paths, excel_path, pdf_path, hist_path, sens_path, baseimg.
  destruct (path_join_relative save_folder) as [p Hp].
  rewrite !Hp by reflexivity. rewrite !append_assoc.
  repeat constructor; cbn [In]; intros H;
    repeat (destruct H as [H|H]); try contradiction;
    apply append_cancel_l in H; cbn [String.append] in H;
    try discriminate H.
  injection H as H. apply append_cancel_l in H. discriminate H.
Qed.

Lemma digit_inj (x y : Z) : digit x = digit y -> (x mod 10 = y mod 10)%Z.
Proof.
  unfold digit. intros H. apply (f_equal Ascii.nat_of_ascii) in H.
  pose proof (Z.mod_pos_bound x 10 eq_refl) as Hx.
  pose proof (Z.mod_pos_bound y 10 eq_refl) as Hy.
  rewrite !Ascii.nat_ascii_embedding in H by lia. lia.
Qed.

Lemma pad2_inj (x y : Z) (s t : String.string) :
  (0 <= x < 100)%Z -> (0 <= y < 100)%Z ->
  pad2 x s = pad2 y t -> x = y /\ s = t.
Proof.
  intros Hx Hy H. unfold pad2 in H. injection H as H1 H2 H3.
  split; [|exact H3].
  apply digit_inj in H1, H2.
  Z.to_euclidean_division_equations. lia.
Qed.

Lemma pad4_inj (x y : Z) (s t : String.string) :
  (0 <= x < 10000)%Z -> (0 <= y < 10000)%Z ->
  pad4 x s = pad4 y t -> x = y /\ s = t.
Proof.
  intros Hx Hy H. unfold pad4 in H. injection H as H1 H2 H3 H4 H5.
  split; [|exact H5].
  apply digit_inj in H1, H2, H3, H4.
  Z.to_euclidean_division_equations. lia.
Qed.

Lemma string_tail_eq (c : Ascii.ascii) (s t : String.string) :
  String.String c s = String.String c t -> s = t.
Proof. intros H. injection H as H. exact H. Qed.

(** The time stamp determines the date and the time, to the second. *)
Lemma strftime_inj (d1 d2 : datetime) (s t : String.string) :
  valid_datetime d1 -> valid_datetime d2 ->
  strftime d1 +++ s = strftime d2 +++ t -> d1 = d2.
Proof.
  intros V1 V2 H. unfold valid_datetime in V1, V2.
  destruct d1 as [y1 mo1 dd1 h1 mi1 s1]. destruct d2 as [y2 mo2 dd2 h2 mi2 s2].
  cbn [year month day hour minute second] in *.
  unfold strftime in H.
  cbn [year month day hour minute second pad2 pad4 String.append] in H.
  change (pad4 y1 (pad2 mo1 (pad2 dd1 (String.String "_"
            (pad2 h1 (pad2 mi1 (pad2 s1 s))))))
          = pad4 y2 (pad2 mo2 (pad2 dd2 (String.String "_"
            (pad2 h2 (pad2 mi2 (pad2 s2 t))))))) in H.
  apply pad4_inj in H; [|lia|lia]. destruct H as [-> H].
  apply pad2_inj in H; [|lia|lia]. destruct H as [-> H].
  apply pad2_inj in H; [|lia|lia]. destruct H as [-> H].
  apply string_tail_eq in H.
  apply pad2_inj in H; [|lia|lia]. destruct H as [-> H].
  apply pad2_inj in H; [|lia|lia]. destruct H as [-> H].
  apply pad2_inj in H; [|lia|lia]. destruct H as [-> H].
  reflexivity.
Qed.


End PathFacts.

(** * The sheet and its chart *)

Section SheetFacts.

Context {A : Type} {num : Number A}.

Lemma nth_error_seq_all {X : Type} (l : list X) :
  map (nth_error l) (seq 0 (length l)) = map Some l.
Proof.
  induction l as [|x l IH]; [reflexivity|].
  cbn [length seq map nth_error]. f_equal.
  rewrite <- seq_shift, map_map. exact IH.
Qed.

(** The cells of a column of the data rows, read through a range that goes
    from row 1 to row [len(df)]. *)
Lemma range_cells_column (df : DataFrame A) (c : nat) (f : Trial A -> list (Cell A))
    (header : list (Cell A)) :
  range_cells (header :: map f df) (mkRange 1 c (length df) c)
  = map (fun t => nth_error (f t) c) df.
Proof.
  unfold range_cells. cbn [first_row first_col last_row].
  replace (length df + 1 - 1)%nat with (length (map f df))
    by (rewrite length_map; lia).
  rewrite <- seq_shift, map_map. unfold cell_at. cbn [nth_error].
  transitivity (map (fun o : option (list (Cell A)) =>
                       match o with Some r => nth_error r c | None => None end)
                    (map (nth_error (map f df)) (seq 0 (length (map f df))))).
  - rewrite map_map. reflexivity.
  - rewrite nth_error_seq_all, !map_map. reflexivity.
Qed.


End SheetFacts.

(** * The controls of the dashboard *)

Section ControlFacts.

Lemma script_reruns_stopped (cs : list Controls) :
  Forall (fun c => start_clicked c = false) cs ->
  Forall (fun m => m <> AutoRefresh) (script_reruns (Some true) cs).
Proof.
  induction cs as [|c cs IH]; intros Hcs; cbn [script_reruns]; [constructor|].
  inversion Hcs as [|c' cs' Hc Hrest]. subst.
  unfold script_run. rewrite Hc.
  replace (if stop_clicked c then true else true) with true
    by (destruct (stop_clicked c); reflexivity).
  cbn [negb]. rewrite andb_false_r. constructor.
  - destruct (run_once_clicked c); discriminate.
  - apply IH. exact Hrest.
Qed.

(** Once Stop has been clicked, no later run of the script enters the
    refresh loop, whatever else is clicked or ticked, until Start is
    clicked: the flag survives the reruns. *)
Theorem stop_disables_auto_refresh
    (stop_flag : option bool) (c : Controls) (cs : list Controls) :
  stop_clicked c = true ->
  Forall (fun c' => start_clicked c' = false) cs ->
  Forall (fun m => m <> AutoRefresh) (script_reruns stop_flag (c :: cs)).
Proof.
  intros Hstop Hcs. cbn [script_reruns]. unfold script_run. rewrite Hstop.
  cbn [negb]. rewrite andb_false_r. constructor.
  - destruct (run_once_clicked c); discriminate.
  - apply script_reruns_stopped. exact Hcs.
Qed.

End ControlFacts.

(** * The metrics of a column of NaN *)

Section NanColumn.

Context {A : Type} {num : Number A}.

Lemma dropna_all_nan (s : list A) :
  Forall (fun x => isnan x = true) s -> dropna s = [].
Proof.
  induction 1 as [|x s Hx _ IH]; [reflexivity|].
  unfold dropna in *. cbn [filter]. rewrite Hx. cbn [negb]. exact IH.
Qed.

(** An overflow is silent: on a frame whose every Profit is NaN the four
    metrics are NaN, as on the empty frame, and nothing is raised. *)
Theorem metrics_of_all_nan (df : DataFrame A) :
  Forall (fun t => isnan (Profit t) = true) df ->
  metrics_of df = mkMetrics None None None None.
Proof.
  intros Hnan.
  assert (Hdrop : dropna (map Profit df) = []).
  { apply dropna_all_nan. apply Forall_map. exact Hnan. }
  unfold metrics_of, Series_mean, Series_max, Series_min, Series_std.
  rewrite Hdrop. reflexivity.
Qed.

End NanColumn.

(** * Runs of the added facts *)

Section MoreRuns.

Set Warnings "-inexact-float".

Local Open Scope string_scope.

Example strftime_example :
  strftime (mkDatetime 2025 11 3 21 6 5) = "20251103_210605".
Proof. reflexivity. Qed.

Example output_paths_example :
  output_paths "simulation_outputs" "20251103_210605"
  = ["simulation_outputs/financial_results_20251103_210605.xlsx";
     "simulation_outputs/financial_report_20251103_210605.pdf";
     "simulation_outputs/sim_20251103_210605_hist.png";
     "simulation_outputs/sim_20251103_210605_sens.png"].
Proof. reflexivity. Qed.

Example script_reruns_example :
  script_reruns None
    [mkControls false false true false; mkControls false true true false;
     mkControls false false true true; mkControls true false true false]
  = [AutoRefresh; Idle; RunOnce; AutoRefresh].
Proof. reflexivity. Qed.

(** A growth rate of infinity makes the first call of [uniform] raise. *)
Example simulate_df_infinite_growth :
  simulate_df 500000%float infinity 0.4%float 0.2%float 1 (constant_rng 0.5%float)
  = inl OverflowError.
Proof. vm_compute. reflexivity. Qed.

Lemma simulate_df_consumes_witness :
  draws (mkRng (fun _ : nat => 0.5%float) 4) = draws (constant_rng 0.5%float)
  /\ pos (mkRng (fun _ : nat => 0.5%float) 4)
     = (pos (constant_rng 0.5%float)
        + 2 * length [mkTrial 500000 200000 240000;
                      mkTrial 500000 200000 240000]%float)%nat
  /\ length [mkTrial 500000 200000 240000; mkTrial 500000 200000 240000]%float
     = Z.to_nat 2.
Proof.
  apply (simulate_df_consumes 500000 0.1 0.4 0.2 2)%float.
  vm_compute. reflexivity.
Defined.

Lemma simulate_df_local_witness :
  outcome (simulate_df 500000 (1 / 10) (4 / 10) (2 / 10) 2 half_rng)%R
  = outcome (simulate_df 500000 (1 / 10) (4 / 10) (2 / 10) 2
               (mkRng (fun _ => 1 / 2) 7))%R.
Proof.
  apply simulate_df_local. intros i Hi. reflexivity.
Defined.

Lemma simulate_df_split_witness :
  (simulate_df 500000 0.1 0.4 0.2 (1 + 2) (constant_rng 0.5)
   = (df1 <- simulate_df 500000 0.1 0.4 0.2 1 ;;
      df2 <- simulate_df 500000 0.1 0.4 0.2 2 ;;
      ret (df1 ++ df2)) (constant_rng 0.5))%float.
Proof.
  apply simulate_df_split; lia.
Defined.






Lemma stop_disables_auto_refresh_witness :
  Forall (fun m => m <> AutoRefresh)
    (script_reruns None
       [mkControls false true true false; mkControls false false true true]).
Proof.
  apply stop_disables_auto_refresh.
  - reflexivity.
  - repeat constructor.
Defined.

Lemma metrics_of_all_nan_witness :
  metrics_of [mkTrial infinity infinity nan] = mkMetrics None None None None.
Proof.
  apply metrics_of_all_nan. repeat constructor.
Defined.

End MoreRuns.
